(** * ts-utils / http.ts: the JSON-aware fetch wrapper and the response helpers

    A shallow embedding of [src/http.ts]:
    - [getClient], the factory that binds a fetch-like primitive and optional
      default options into a client;
    - [ok] and [err], the two [Response] helpers.

    JavaScript strings are modelled as Rocq strings (sequences of code
    units), numbers that the code handles (status codes) as [Z], plain
    objects used as option bags as finite maps from property names to values,
    and promises as state-passing computations that either resolve or
    reject. *)

From Stdlib Require Import ZArith Ascii String DecimalString.
From stdpp Require Import base option list strings gmap.

Set Warnings "-register-all".
Local Open Scope string_scope.
Local Open Scope Z_scope.

(** ** Strings *)

Module Str.

(** The double-quote character, spelled by its code. *)
Definition dquote : string := String (ascii_of_nat 34) EmptyString.
Definition backslash : string := String (ascii_of_nat 92) EmptyString.

(** [String.prototype.startsWith]. *)
Fixpoint startsWith (s p : string) : bool :=
  match p, s with
  | EmptyString, _ => true
  | String _ _, EmptyString => false
  | String b p', String a s' => if Ascii.eqb a b then startsWith s' p' else false
  end.

(** [String.prototype.includes]: case-sensitive substring search. *)
Fixpoint includes (s p : string) : bool :=
  if startsWith s p then true
  else match s with
       | EmptyString => false
       | String _ s' => includes s' p
       end.

(** [Array.prototype.join] on an array of strings. *)
Fixpoint join (sep : string) (xs : list string) : string :=
  match xs with
  | [] => EmptyString
  | [x] => x
  | x :: rest => x +:+ sep +:+ join sep rest
  end.

(** [Number.prototype.toString] on an integer-valued number (below 1e21 in
    magnitude, where JavaScript still prints plain decimal digits). *)
Definition Number_toString (n : Z) : string :=
  NilZero.string_of_int (Z.to_int n).

End Str.

(** ** JavaScript values *)

(** A [ReadableStream] is a host object: it has no own enumerable property
    and no [toJSON] method. *)
Variant ReadableStream : Type := readableStream.

Inductive JSValue : Type :=
| JNull
| JBool (b : bool)
| JNumber (n : Z)
| JString (s : string)
| JArray (items : list JSValue)
| JObject (props : list (string * JSValue))
| JStream (s : ReadableStream).

(** Thrown values: error objects with their class and message. *)
Variant ErrorClass : Type := Error | TypeError | RangeError | SyntaxError | AbortError.

Record Exn : Type := mkExn { exn_class : ErrorClass; exn_message : string }.

(** [new Error(message)]. *)
Definition new_Error (message : string) : Exn := mkExn Error message.

(** ** JSON.stringify and string conversion *)

Module JSON.

Definition hex_digit (n : nat) : string :=
  String (ascii_of_nat (if (n <? 10)%nat then 48 + n else 87 + n)) EmptyString.

(** One code unit of a string inside [QuoteJSONString]. *)
Definition quote_char (c : ascii) : string :=
  let n := nat_of_ascii c in
  if (n =? 34)%nat then Str.backslash +:+ Str.dquote
  else if (n =? 92)%nat then Str.backslash +:+ Str.backslash
  else if (n =? 8)%nat then Str.backslash +:+ "b"
  else if (n =? 9)%nat then Str.backslash +:+ "t"
  else if (n =? 10)%nat then Str.backslash +:+ "n"
  else if (n =? 12)%nat then Str.backslash +:+ "f"
  else if (n =? 13)%nat then Str.backslash +:+ "r"
  else if (n <? 32)%nat then
    Str.backslash +:+ "u00" +:+ hex_digit (n / 16) +:+ hex_digit (n mod 16)
  else String c EmptyString.

Fixpoint quote_body (s : string) : string :=
  match s with
  | EmptyString => EmptyString
  | String c s' => quote_char c +:+ quote_body s'
  end.

Definition quote (s : string) : string :=
  Str.dquote +:+ quote_body s +:+ Str.dquote.

(** [JSON.stringify(v)] with no replacer and no indentation. *)
Fixpoint stringify (v : JSValue) : string :=
  match v with
  | JNull => "null"
  | JBool true => "true"
  | JBool false => "false"
  | JNumber n => Str.Number_toString n
  | JString s => quote s
  | JArray items => "[" +:+ Str.join "," (map stringify items) +:+ "]"
  | JObject props =>
      "{" +:+ Str.join ","
                (map (fun p => let '(k, x) := p in quote k +:+ ":" +:+ stringify x) props)
          +:+ "}"
  | JStream _ => "{}"
  end.

End JSON.

(** [ToString], as applied by a template literal to an interpolated value. *)
Fixpoint ToString (v : JSValue) : string :=
  match v with
  | JNull => "null"
  | JBool true => "true"
  | JBool false => "false"
  | JNumber n => Str.Number_toString n
  | JString s => s
  | JArray items =>
      Str.join "," (map (fun x => match x with JNull => EmptyString | _ => ToString x end) items)
  | JObject _ => "[object Object]"
  | JStream _ => "[object ReadableStream]"
  end.

(** ** Promises

    An [async] computation runs against the state of the outside world (the
    network, the host's streams), which only the fetch primitive and the
    body-reading methods of a response can observe or change. It settles
    either resolved with a value or rejected with the thrown value. *)

Inductive Outcome (A : Type) : Type :=
| Resolved (a : A)
| Rejected (e : Exn).
Arguments Resolved {A} a.
Arguments Rejected {A} e.

Definition Promise (World A : Type) : Type := World -> Outcome A * World.

Definition resolve {World A} (a : A) : Promise World A :=
  fun w => (Resolved a, w).

(** [throw e] inside an async function. *)
Definition throw {World A} (e : Exn) : Promise World A :=
  fun w => (Rejected e, w).

(** [await p] followed by the rest of the async function: a rejection of [p]
    is rethrown at the await point and, with no [try] around it, rejects the
    whole function. *)
Definition await {World A B} (p : Promise World A) (k : A -> Promise World B)
  : Promise World B :=
  fun w => match p w with
           | (Resolved a, w') => k a w'
           | (Rejected e, w') => (Rejected e, w')
           end.

Notation "'let_await' x ':=' p 'in' k" := (await p (fun x => k))
  (at level 10, x name, p at level 100, k at level 200).

(** ** The fetch contract *)

(** The option bag [RequestInit] ([FetchParams[1]]): property names to values. *)
Abbreviation RequestInit := (gmap string JSValue).

(** What the client reads of a [Response]: the [ok] flag, [status], [url],
    [headers.get], the [body] stream and the two body-reading methods. *)
Record Response (World : Type) : Type := mkResponse {
  res_ok : bool;
  res_status : Z;
  res_url : string;
  res_headers_get : string -> option string;
  res_body : option ReadableStream;
  res_json : Promise World JSValue;
  res_text : Promise World string
}.
Arguments mkResponse {World}.
Arguments res_ok {World}.
Arguments res_status {World}.
Arguments res_url {World}.
Arguments res_headers_get {World}.
Arguments res_body {World}.
Arguments res_json {World}.
Arguments res_text {World}.

(** [typeof fetch]: the target, the optional options, a promise of a response. *)
Definition Fetch (World RequestInfo : Type) : Type :=
  RequestInfo -> option RequestInit -> Promise World (Response World).

(** Object spread [{ ...target, ...source }] onto an object under
    construction: own properties of [source] are copied over those already
    there; spreading [undefined] copies nothing. *)
Definition spread (target : RequestInit) (source : option RequestInit) : RequestInit :=
  match source with
  | Some src => src ∪ target
  | None => target
  end.

(** [res.body] as a value handed to [JSON.stringify]. *)
Definition body_value (b : option ReadableStream) : JSValue :=
  match b with
  | Some s => JStream s
  | None => JNull
  end.

(** ** getClient *)

(** The template literal of lines 33-35 with its three holes. *)
Definition failure_template (url : string) (status : Z) (rendering : string) : string :=
  "Request to " +:+ url +:+ " failed with status " +:+ Str.Number_toString status
    +:+ " and response " +:+ Str.dquote +:+ rendering +:+ Str.dquote +:+ ".".

Section ClientFactory.
Context {World RequestInfo : Type}.

(** Lines 18-21: [let init = params[1]; if (defaultOpts) init = {...}].
    An options object is truthy whatever it holds; only an absent
    [defaultOpts] skips the merge. *)
Definition merge_init (defaultOpts init : option RequestInit) : option RequestInit :=
  match defaultOpts with
  | Some _ => Some (spread (spread ∅ defaultOpts) init)
  | None => init
  end.

(** Lines 24-26: [res.headers.get("content-type")?.includes("application/json")];
    the [undefined] of a missing header is falsy. *)
Definition isJson (res : Response World) : bool :=
  match res_headers_get res "content-type" with
  | Some v => Str.includes v "application/json"
  | None => false
  end.

(** Line 27: [isJson ? await res.json() : await res.text()]. *)
Definition read_body (res : Response World) : Promise World JSValue :=
  if isJson res then res_json res
  else let_await t := res_text res in resolve (JString t).

(** Lines 32-36: the message of the error thrown when [res.ok] is false. *)
Definition failure_message (res : Response World) (result : JSValue) : string :=
  failure_template (res_url res) (res_status res)
    (if isJson res then JSON.stringify (body_value (res_body res)) else ToString result).

Definition getClient (fetch : Fetch World RequestInfo) (defaultOpts : option RequestInit)
    (input : RequestInfo) (init0 : option RequestInit) : Promise World JSValue :=
  let init := merge_init defaultOpts init0 in
  let_await res := fetch input init in
  let_await result := read_body res in
  if res_ok res then resolve result
  else throw (new_Error (failure_message res result)).

End ClientFactory.

(** ** Test doubles *)

(** A promise that is already settled and leaves the world alone. *)
Definition settled {World A} (o : Outcome A) : Promise World A :=
  fun w => (o, w).

(** A header list answering [get] for the one name it holds. *)
Definition content_type_only (v : option string) (name : string) : option string :=
  if String.eqb name "content-type" then v else None.

(** A primitive spied upon: the world is paired with the log of the calls
    received so far; the responses it hands out read their bodies as before
    and leave the log alone. *)
Section Spy.
Context {World RequestInfo : Type}.

Definition Call : Type := RequestInfo * option RequestInit.

Definition lift_promise {A} (p : Promise World A) : Promise (World * list Call) A :=
  fun wl => let '(o, w') := p (fst wl) in (o, (w', snd wl)).

Definition lift_response (r : Response World) : Response (World * list Call) :=
  {| res_ok := res_ok r;
     res_status := res_status r;
     res_url := res_url r;
     res_headers_get := res_headers_get r;
     res_body := res_body r;
     res_json := lift_promise (res_json r);
     res_text := lift_promise (res_text r) |}.

Definition spy (fetch : Fetch World RequestInfo) : Fetch (World * list Call) RequestInfo :=
  fun input init wl =>
    let '(o, w') := fetch input init (fst wl) in
    (match o with
     | Resolved r => Resolved (lift_response r)
     | Rejected e => Rejected e
     end, (w', (snd wl ++ [(input, init)])%list)).

(** The calls the primitive has received once the client has settled. *)
Definition received (fetch : Fetch World RequestInfo) (defaultOpts : option RequestInit)
    (input : RequestInfo) (init : option RequestInit) (w : World) (log : list Call)
  : list Call :=
  snd (snd (getClient (spy fetch) defaultOpts input init (w, log))).

End Spy.

(** ** Response helpers *)

(** What [new Response(body, { status })] builds from a string body: the
    fields the constructor fixes. The client above reads a response through
    its methods instead, hence the separate record there. *)
Record ResponseValue : Type := mkResponseValue {
  rv_status : Z;
  rv_statusText : string;
  rv_ok : bool;
  rv_content_type : string;
  rv_body : string
}.

Inductive Completion (A : Type) : Type :=
| Normal (a : A)
| Throw (e : Exn).
Arguments Normal {A} a.
Arguments Throw {A} e.

(** Web IDL conversion of a number to [unsigned short] (no [EnforceRange]).
    Hosts agree with it from 0 upwards; below 0 some keep the sign instead of
    wrapping, so nothing is stated here about a negative status. *)
Definition to_unsigned_short (n : Z) : Z := n mod 65536.

(** The null body statuses of the Fetch Standard. *)
Definition null_body_status (s : Z) : bool :=
  (s =? 101) || (s =? 103) || (s =? 204) || (s =? 205) || (s =? 304).

(** The platform constructor [new Response(body, { status })] with a string
    body, after the Fetch Standard: the status is converted to an unsigned
    short, must lie in 200..599, and must not be a null body status since
    the body is present. The texts of the errors are the host's. *)
Definition new_Response (body : string) (status : Z) : Completion ResponseValue :=
  let s := to_unsigned_short status in
  if (s <? 200) || (599 <? s) then
    Throw (mkExn RangeError "The status provided is outside the range [200, 599].")
  else if null_body_status s then
    Throw (mkExn TypeError "Response with null body status cannot have body.")
  else
    Normal {| rv_status := s;
              rv_statusText := EmptyString;
              rv_ok := (200 <=? s) && (s <=? 299);
              rv_content_type := "text/plain;charset=UTF-8";
              rv_body := body |}.

(** A parameter with a default value: [None] is an omitted (or [undefined])
    argument. *)
Definition ok (status : option Z) (msg : option string) : Completion ResponseValue :=
  new_Response (default "Ok" msg) (default 200 status).

Definition err (status : option Z) (msg : option string) : Completion ResponseValue :=
  new_Response (default "Bad Request" msg) (default 400 status).

(** A response whose body-reading methods are already settled. *)
Definition response_double {World} (ok_flag : bool) (status : Z) (url : string)
    (content_type : option string) (parsed : Outcome JSValue) (raw : Outcome string)
  : Response World :=
  {| res_ok := ok_flag;
     res_status := status;
     res_url := url;
     res_headers_get := content_type_only content_type;
     res_body := Some readableStream;
     res_json := settled parsed;
     res_text := settled raw |}.

(** A primitive that answers every call with the same response. *)
Definition always {World RequestInfo} (res : Response World) : Fetch World RequestInfo :=
  fun _ _ => resolve res.

(** A primitive whose every call rejects (the network is down). *)
Definition unreachable {World RequestInfo} (e : Exn) : Fetch World RequestInfo :=
  fun _ _ => throw e.

(** A primitive that counts its calls in the world and answers each with
    the same response. *)
Definition counting {RequestInfo} (res : Response nat) : Fetch nat RequestInfo :=
  fun _ _ n => (Resolved res, S n).

Definition not_json : Exn := mkExn SyntaxError "Unexpected token in JSON".
Definition network_down : Exn := mkExn TypeError "Failed to fetch".

Definition dogs : JSValue :=
  JObject [("dogs", JArray [JObject [("name", JString "Rex")]])].

Definition dogs_response {World} : Response World :=
  response_double true 200 "https://api.dogs.awesome" (Some "application/json")
    (Resolved dogs) (Resolved (JSON.stringify dogs)).

Definition pong_response {World} : Response World :=
  response_double true 200 "https://x/ping" None (Rejected not_json) (Resolved "pong").

Definition shouting_response {World} : Response World :=
  response_double true 200 "https://x/ping" (Some "Application/JSON")
    (Resolved (JString "parsed")) (Resolved "raw").

Definition not_found_response {World} : Response World :=
  response_double false 404 "https://x/y" (Some "text/plain")
    (Rejected not_json) (Resolved "not found").

Definition broken_json_response {World} : Response World :=
  response_double false 500 "https://x/y" (Some "application/json")
    (Rejected not_json) (Resolved "<html>oops</html>").

Definition nope : JSValue := JObject [("error", JString "nope")].

Definition json_error_response {World} : Response World :=
  response_double false 500 "https://x/y" (Some "application/json; charset=utf-8")
    (Resolved nope) (Resolved (JSON.stringify nope)).

(** A primitive whose responses are watched: the world is paired with the
    list of body-reading methods invoked so far. *)
Variant BodyRead : Type := ReadJson | ReadText.

Section Watch.
Context {World RequestInfo : Type}.

Definition note_read {A} (m : BodyRead) (p : Promise World A)
  : Promise (World * list BodyRead) A :=
  fun wl => let '(o, w') := p (fst wl) in (o, (w', (snd wl ++ [m])%list)).

Definition watch_response (r : Response World) : Response (World * list BodyRead) :=
  {| res_ok := res_ok r;
     res_status := res_status r;
     res_url := res_url r;
     res_headers_get := res_headers_get r;
     res_body := res_body r;
     res_json := note_read ReadJson (res_json r);
     res_text := note_read ReadText (res_text r) |}.

Definition watch (fetch : Fetch World RequestInfo)
  : Fetch (World * list BodyRead) RequestInfo :=
  fun input init wl =>
    let '(o, w') := fetch input init (fst wl) in
    (match o with
     | Resolved r => Resolved (watch_response r)
     | Rejected e => Rejected e
     end, (w', snd wl)).

(** The body-reading methods invoked by one call of the client. *)
Definition body_reads (fetch : Fetch World RequestInfo) (defaultOpts : option RequestInit)
    (input : RequestInfo) (init : option RequestInit) (w : World) : list BodyRead :=
  snd (snd (getClient (watch fetch) defaultOpts input init (w, []))).

End Watch.

(** A failed response whose body is plain text. *)
Definition teapot_response {World} : Response World :=
  response_double false 418 "https://x/brew" (Some "text/html")
    (Rejected not_json) (Resolved "short and stout").

(** A failed JSON response that came without a body stream. *)
Definition bodiless_json_response {World} : Response World :=
  {| res_ok := false;
     res_status := 502;
     res_url := "https://x/y";
     res_headers_get := content_type_only (Some "application/json");
     res_body := None;
     res_json := settled (Resolved nope);
     res_text := settled (Resolved (JSON.stringify nope)) |}.

(** ** Vocabulary of the properties *)

(** The settled promise carries the error this client builds for [res]. *)
Definition is_RequestFailure {World} (res : Response World) (o : Outcome JSValue) : Prop :=
  exists rendering,
    o = Rejected (new_Error (failure_template (res_url res) (res_status res) rendering)).






(** * Properties *)

(** ** Response helpers *)

(** [produces c s b]: the constructor call [c] returned a response with
    status [s] and body text [b]. *)
Definition produces (c : Completion ResponseValue) (s : Z) (b : string) : Prop :=
  exists r, c = Normal r /\ rv_status r = s /\ rv_body r = b.




(** C6. [ok()] gives status 200 and body "Ok", [ok(201, "Created")] gives
    201 and "Created"; [err()] gives status 400 and body "Bad Request",
    [err(404, "Not Found")] gives 404 and "Not Found". *)
Theorem helpers_defaults_and_explicit :
  produces (ok None None) 200 "Ok" /\
  produces (ok (Some 201) (Some "Created")) 201 "Created" /\
  produces (err None None) 400 "Bad Request" /\
  produces (err (Some 404) (Some "Not Found")) 404 "Not Found".
Proof.
  unfold produces. repeat split; eexists; (split; [reflexivity|]); split; reflexivity.
Qed.





(** C10. With both arguments supplied, [ok] and [err] build the same
    response (or fail alike); they differ in their defaults only, 200 and
    "Ok" against 400 and "Bad Request". *)
Theorem ok_err_agree_on_explicit_arguments :
  (forall (s : Z) (m : string), ok (Some s) (Some m) = err (Some s) (Some m)) /\
  (forall s m, ok s m = new_Response (default "Ok" m) (default 200 s)) /\
  (forall s m, err s m = new_Response (default "Bad Request" m) (default 400 s)) /\
  ok None None <> err None None /\
  (forall s : Z, ok (Some s) None = err (Some s) (Some "Ok")) /\
  (forall m : string, err None (Some m) = ok (Some 400) (Some m)).
Proof.
  repeat split; try reflexivity.
  vm_compute. discriminate.
Qed.

(** ** Substring search *)

Lemma startsWith_spec (s p : string) :
  Str.startsWith s p = true <-> exists rest, s = p +:+ rest.
Proof.
  revert s. induction p as [|b p IH]; intros s.
  - destruct s; cbn; split; eauto.
  - destruct s as [|a s]; cbn.
    + split; [discriminate | intros [rest H]; discriminate H].
    + destruct (Ascii.eqb_spec a b) as [->|Hne].
      * rewrite IH. split; intros [rest H]; exists rest.
        -- now rewrite H.
        -- now injection H.
      * split; [discriminate | intros [rest H]; injection H; congruence].
Qed.

(** [includes] is exact search for a run of equal code units, hence
    sensitive to case. *)
Lemma includes_spec (s p : string) :
  Str.includes s p = true <-> exists before after, s = before +:+ p +:+ after.
Proof.
  induction s as [|a s IH].
  - replace (Str.includes EmptyString p) with (Str.startsWith EmptyString p)
      by (cbn [Str.includes]; now destruct (Str.startsWith EmptyString p)).
    rewrite startsWith_spec. split.
    + intros [rest H]. now exists EmptyString, rest.
    + intros (before & after & H). destruct before; [|discriminate H]. eauto.
  - cbn [Str.includes]. destruct (Str.startsWith (String a s) p) eqn:E.
    + apply startsWith_spec in E as [rest E]. split; [|reflexivity].
      intros _. now exists EmptyString, rest.
    + rewrite IH. split.
      * intros (before & after & H). exists (String a before), after. cbn. now rewrite H.
      * intros (before & after & H). destruct before as [|b before].
        -- cbn in H.
           assert (Str.startsWith (String a s) p = true) by (apply startsWith_spec; eauto).
           congruence.
        -- cbn in H. injection H as _ H. eauto.
Qed.

(** ** The client, step by step *)

Section ClientSteps.
Context {World RequestInfo : Type}.
Implicit Types (fetch : Fetch World RequestInfo) (d i : option RequestInit).
Implicit Types (input : RequestInfo) (res : Response World) (w : World).

Lemma getClient_steps fetch d input i w :
  getClient fetch d input i w =
    match fetch input (merge_init d i) w with
    | (Rejected e, w1) => (Rejected e, w1)
    | (Resolved res, w1) =>
        match read_body res w1 with
        | (Rejected e, w2) => (Rejected e, w2)
        | (Resolved result, w2) =>
            if res_ok res then (Resolved result, w2)
            else (Rejected (new_Error (failure_message res result)), w2)
        end
    end.
Proof.
  unfold getClient, await.
  destruct (fetch input (merge_init d i) w) as [[res|e] w1]; [|reflexivity].
  destruct (read_body res w1) as [[result|e] w2]; [|reflexivity].
  destruct (res_ok res); reflexivity.
Qed.

Lemma read_body_json res w :
  isJson res = true -> read_body res w = res_json res w.
Proof. unfold read_body. now intros ->. Qed.

Lemma read_body_text res w :
  isJson res = false ->
  read_body res w =
    match res_text res w with
    | (Resolved t, w') => (Resolved (JString t), w')
    | (Rejected e, w') => (Rejected e, w')
    end.
Proof. unfold read_body, await, resolve. now intros ->. Qed.

Lemma isJson_true_iff res :
  isJson res = true <->
  exists v, res_headers_get res "content-type" = Some v /\
            Str.includes v "application/json" = true.
Proof.
  unfold isJson. destruct (res_headers_get res "content-type") as [v|].
  - split; [eauto|]. now intros (v' & [= <-] & H).
  - split; [discriminate|]. now intros (v' & [=] & _).
Qed.

Lemma isJson_false_iff res :
  isJson res = false <->
  res_headers_get res "content-type" = None \/
  exists v, res_headers_get res "content-type" = Some v /\
            Str.includes v "application/json" = false.
Proof.
  unfold isJson. destruct (res_headers_get res "content-type") as [v|].
  - split; [eauto|]. intros [[=]|(v' & [= <-] & H)]. exact H.
  - split; [eauto|]. reflexivity.
Qed.

Lemma merge_init_both (D I : RequestInit) :
  merge_init (Some D) (Some I) = Some (I ∪ D).
Proof. unfold merge_init, spread. now rewrite (right_id_L ∅ (∪) D). Qed.

Lemma merge_init_default_only (D : RequestInit) :
  merge_init (Some D) None = Some D.
Proof. unfold merge_init, spread. now rewrite (right_id_L ∅ (∪) D). Qed.

End ClientSteps.

(** ** What the primitive receives *)

Lemma spy_records {World RequestInfo} (fetch : Fetch World RequestInfo)
    (d i : option RequestInit) (input : RequestInfo) (w : World) (log : list Call) :
  received fetch d input i w log = (log ++ [(input, merge_init d i)])%list.
Proof.
  unfold received. rewrite getClient_steps. unfold spy. cbn [fst snd].
  destruct (fetch input (merge_init d i) w) as [[res|e] w1]; [|reflexivity].
  unfold read_body, await, resolve.
  change (isJson (lift_response res)) with (isJson res).
  destruct (isJson res); cbn [lift_response res_json res_text res_ok];
    unfold lift_promise; cbn [fst snd].
  - destruct (res_json res w1) as [[v|e] w2]; [|reflexivity].
    destruct (res_ok res); reflexivity.
  - destruct (res_text res w1) as [[t|e] w2]; [|reflexivity].
    destruct (res_ok res); reflexivity.
Qed.

(** The spy changes nothing of what the client settles to. *)
Lemma spy_transparent {World RequestInfo} (fetch : Fetch World RequestInfo)
    (d i : option RequestInit) (input : RequestInfo) (w : World) (log : list Call) :
  fst (getClient (spy fetch) d input i (w, log)) = fst (getClient fetch d input i w).
Proof.
  rewrite !getClient_steps. unfold spy. cbn [fst snd].
  destruct (fetch input (merge_init d i) w) as [[res|e] w1]; [|reflexivity].
  unfold read_body, await, resolve, failure_message.
  change (isJson (lift_response res)) with (isJson res).
  destruct (isJson res); cbn [lift_response res_json res_text res_ok res_url res_status res_body];
    unfold lift_promise; cbn [fst snd].
  - destruct (res_json res w1) as [[v|e] w2]; [|reflexivity].
    destruct (res_ok res); reflexivity.
  - destruct (res_text res w1) as [[t|e] w2]; [|reflexivity].
    destruct (res_ok res); reflexivity.
Qed.

(** C2. Each call of the client calls the primitive once, with the target
    and the shallow merge of the defaults under the per-call options: a key
    of the per-call options wins with its whole value, the other keys come
    from the defaults. Defaults alone are passed with the content they
    have, per-call options alone as they are, and nothing when neither is
    given. *)
Theorem primitive_receives_shallow_merge :
  forall (World RequestInfo : Type) (fetch : Fetch World RequestInfo)
         (input : RequestInfo) (w : World) (log : list Call),
    (forall D I : RequestInit, exists M : RequestInit,
        received fetch (Some D) input (Some I) w log = (log ++ [(input, Some M)])%list /\
        forall k, M !! k = match I !! k with
                           | Some v => Some v
                           | None => D !! k
                           end) /\
    received fetch (Some {[ "headers" := JObject [("A", JString "1")] ]}) input
             (Some {[ "headers" := JObject [("B", JString "2")] ]}) w log
      = (log ++ [(input, Some {[ "headers" := JObject [("B", JString "2")] ]})])%list /\
    (forall D : RequestInit,
        received fetch (Some D) input None w log = (log ++ [(input, Some D)])%list) /\
    (forall I : RequestInit,
        received fetch None input (Some I) w log = (log ++ [(input, Some I)])%list) /\
    received fetch None input None w log = (log ++ [(input, None)])%list.
Proof.
  intros World RequestInfo fetch input w log.
  split; [|split; [|split; [|split]]].
  - intros D I. exists (I ∪ D). rewrite spy_records, merge_init_both. split; [reflexivity|].
    intros k. rewrite lookup_union.
    destruct (I !! k) as [v|]; destruct (D !! k); reflexivity.
  - rewrite spy_records, merge_init_both. reflexivity.
  - intros D. now rewrite spy_records, merge_init_default_only.
  - intros I. now rewrite spy_records.
  - now rewrite spy_records.
Qed.

(** ** Failure and success of a call *)

(** C1, as stated, fails: the response below has [ok = false] and a JSON
    content type, but its body does not parse; the client rejects with the
    parser's [SyntaxError], not with the error it builds itself. *)
Lemma unreadable_body_preempts_request_failure :
  res_ok (@broken_json_response unit) = false /\
  fst (getClient (always broken_json_response) None "https://x/y" None tt)
    = Rejected not_json /\
  ~ is_RequestFailure (@broken_json_response unit)
      (fst (getClient (always broken_json_response) None "https://x/y" None tt)).
Proof.
  split; [reflexivity|]. split; [reflexivity|].
  intros [rendering H]. vm_compute in H. discriminate H.
Qed.

(** C1 (amended). Once the primitive has answered with a response, the
    body is read first. If that step resolves, the client rejects with the
    error it builds itself exactly when the response's [ok] flag is false,
    and resolves with the value read otherwise; the message holds the URL,
    the status and a rendering of the body, which for a body read as text is
    that text, so a response with [ok = false], status 404, url
    "https://x/y" and the text body "not found" gives a message containing
    all three. If that step raises, the client rejects with the error
    raised, whatever the [ok] flag, and builds no error of its own. *)
Theorem request_failure_iff_not_ok_once_body_read
    (World RequestInfo : Type) (fetch : Fetch World RequestInfo)
    (d i : option RequestInit) (input : RequestInfo) (w w1 : World)
    (res : Response World) :
  fetch input (merge_init d i) w = (Resolved res, w1) ->
  (forall result w2,
     read_body res w1 = (Resolved result, w2) ->
     (res_ok res = true -> getClient fetch d input i w = (Resolved result, w2)) /\
     (res_ok res = false ->
        exists rendering,
          getClient fetch d input i w =
            (Rejected (new_Error (failure_template (res_url res) (res_status res) rendering)),
             w2) /\
          (isJson res = false -> rendering = ToString result)) /\
     (is_RequestFailure res (fst (getClient fetch d input i w)) <-> res_ok res = false) /\
     (res_ok res = false -> res_status res = 404 -> res_url res = "https://x/y" ->
      isJson res = false -> result = JString "not found" ->
        exists e, fst (getClient fetch d input i w) = Rejected e /\
                  Str.includes (exn_message e) "https://x/y" = true /\
                  Str.includes (exn_message e) "404" = true /\
                  Str.includes (exn_message e) "not found" = true)) /\
  (forall e w2,
     read_body res w1 = (Rejected e, w2) ->
     getClient fetch d input i w = (Rejected e, w2)) /\
  (forall e w2,
     isJson res = true -> res_json res w1 = (Rejected e, w2) ->
     getClient fetch d input i w = (Rejected e, w2)) /\
  (forall e w2,
     isJson res = false -> res_text res w1 = (Rejected e, w2) ->
     getClient fetch d input i w = (Rejected e, w2)).
Proof.
  intros Hfetch. split; [|split; [|split]].
  - intros result w2 Hread.
    assert (Hrun : getClient fetch d input i w =
                     if res_ok res then (Resolved result, w2)
                     else (Rejected (new_Error (failure_message res result)), w2)).
    { rewrite getClient_steps, Hfetch, Hread. reflexivity. }
    split; [|split; [|split]].
    + intros Hok. now rewrite Hrun, Hok.
    + intros Hok. rewrite Hrun, Hok. unfold failure_message.
      eexists. split; [reflexivity|]. now intros ->.
    + rewrite Hrun. unfold is_RequestFailure. destruct (res_ok res); cbn [fst].
      * split; [intros [r H]; discriminate H | discriminate].
      * split; [reflexivity|]. intros _. unfold failure_message. eauto.
    + intros Hok Hstatus Hurl Hjson ->. rewrite Hrun, Hok. cbn [fst].
      eexists. split; [reflexivity|].
      unfold failure_message. rewrite Hstatus, Hurl, Hjson.
      repeat split; reflexivity.
  - intros e w2 Hread. now rewrite getClient_steps, Hfetch, Hread.
  - intros e w2 Hjson Hread.
    now rewrite getClient_steps, Hfetch, (read_body_json _ _ Hjson), Hread.
  - intros e w2 Hjson Hread.
    now rewrite getClient_steps, Hfetch, (read_body_text _ _ Hjson), Hread.
Qed.

Lemma request_failure_iff_not_ok_once_body_read_witness :
  always not_found_response "https://x/y" (merge_init None None) tt
    = (Resolved not_found_response, tt) /\
  read_body (@not_found_response unit) tt = (Resolved (JString "not found"), tt) /\
  (exists e,
    fst (getClient (always not_found_response) None "https://x/y" None tt) = Rejected e /\
    Str.includes (exn_message e) "https://x/y" = true /\
    Str.includes (exn_message e) "404" = true /\
    Str.includes (exn_message e) "not found" = true) /\
  res_ok (@broken_json_response unit) = false /\
  read_body (@broken_json_response unit) tt = (Rejected not_json, tt) /\
  getClient (always broken_json_response) None "https://x/y" None tt
    = (Rejected not_json, tt).
Proof.
  split; [reflexivity|]. split; [reflexivity|].
  split.
  { refine (proj2 (proj2 (proj2
      (proj1 (request_failure_iff_not_ok_once_body_read unit string
                (always not_found_response) None None "https://x/y" tt tt
                not_found_response _)
         (JString "not found") tt _))) _ _ _ _ _); reflexivity. }
  split; [reflexivity|]. split; [reflexivity|].
  refine (proj1 (proj2
    (request_failure_iff_not_ok_once_body_read unit string
       (always broken_json_response) None None "https://x/y" tt tt
       broken_json_response _)) not_json tt _); reflexivity.
Defined.

(** C3. With [ok = true] and a content type containing "application/json",
    the client settles as [res.json()] does: it resolves to the parsed
    body. *)
Theorem json_body_resolves_parsed
    (World RequestInfo : Type) (fetch : Fetch World RequestInfo)
    (d i : option RequestInit) (input : RequestInfo) (w w1 : World)
    (res : Response World) (v : string) :
  fetch input (merge_init d i) w = (Resolved res, w1) ->
  res_ok res = true ->
  res_headers_get res "content-type" = Some v ->
  Str.includes v "application/json" = true ->
  getClient fetch d input i w = res_json res w1 /\
  (forall parsed w2, res_json res w1 = (Resolved parsed, w2) ->
     getClient fetch d input i w = (Resolved parsed, w2)) /\
  fst (getClient (always (@dogs_response World)) d input i w)
    = Resolved (JObject [("dogs", JArray [JObject [("name", JString "Rex")]])]).
Proof.
  intros Hfetch Hok Hget Hinc.
  assert (Hjson : isJson res = true) by (apply isJson_true_iff; eauto).
  assert (Hrun : getClient fetch d input i w = res_json res w1).
  { rewrite getClient_steps, Hfetch, (read_body_json _ _ Hjson), Hok.
    now destruct (res_json res w1) as [[parsed|e] w2]. }
  split; [exact Hrun|]. split.
  - intros parsed w2 H. now rewrite Hrun.
  - reflexivity.
Qed.

Lemma json_body_resolves_parsed_witness :
  res_ok (@dogs_response unit) = true /\
  res_headers_get (@dogs_response unit) "content-type" = Some "application/json" /\
  Str.includes "application/json" "application/json" = true /\
  getClient (always dogs_response) None "https://api.dogs.awesome" None tt
    = (Resolved dogs, tt).
Proof.
  split; [reflexivity|]. split; [reflexivity|]. split; [reflexivity|].
  refine (proj1 (proj2
    (json_body_resolves_parsed unit string (always dogs_response) None None
       "https://api.dogs.awesome" tt tt dogs_response "application/json" _ _ _ _))
    dogs tt _); reflexivity.
Defined.

(** C4. With [ok = true] and a content type that is missing, or that does
    not contain "application/json" letter for letter, the client resolves
    to the raw text of the body. *)
Theorem text_body_resolves_raw
    (World RequestInfo : Type) (fetch : Fetch World RequestInfo)
    (d i : option RequestInit) (input : RequestInfo) (w w1 w2 : World)
    (res : Response World) (raw : string) :
  fetch input (merge_init d i) w = (Resolved res, w1) ->
  res_ok res = true ->
  res_headers_get res "content-type" = None \/
  (exists v, res_headers_get res "content-type" = Some v /\
             ~ exists before after, v = before +:+ "application/json" +:+ after) ->
  res_text res w1 = (Resolved raw, w2) ->
  getClient fetch d input i w = (Resolved (JString raw), w2) /\
  Str.includes "Application/JSON" "application/json" = false /\
  fst (getClient (always (@shouting_response World)) d input i w) = Resolved (JString "raw") /\
  fst (getClient (always (@pong_response World)) d input i w) = Resolved (JString "pong").
Proof.
  intros Hfetch Hok Hct Htext.
  assert (Hjson : isJson res = false).
  { apply isJson_false_iff. destruct Hct as [Hnone|(v & Hv & Hnot)]; [now left|].
    right. exists v. split; [exact Hv|].
    destruct (Str.includes v "application/json") eqn:E; [|reflexivity].
    exfalso. apply Hnot. now apply includes_spec. }
  split; [|repeat split; reflexivity].
  now rewrite getClient_steps, Hfetch, (read_body_text _ _ Hjson), Htext, Hok.
Qed.

Lemma text_body_resolves_raw_witness :
  res_ok (@pong_response unit) = true /\
  res_headers_get (@pong_response unit) "content-type" = None /\
  res_text (@pong_response unit) tt = (Resolved "pong", tt) /\
  getClient (always pong_response) None "https://x/ping" None tt
    = (Resolved (JString "pong"), tt).
Proof.
  split; [reflexivity|]. split; [reflexivity|]. split; [reflexivity|].
  refine (proj1
    (text_body_resolves_raw unit string (always pong_response) None None
       "https://x/ping" tt tt tt pong_response "pong" _ _ _ _)); try reflexivity.
  left. reflexivity.
Defined.

(** C5 fails on the code: with [ok = false] and a JSON content type the
    message renders [JSON.stringify(res.body)], the body stream, and not the
    value that [res.json()] parsed. For the body [{"error":"nope"}] the
    rendering is an empty pair of braces, and the parsed value never shows. *)
Lemma json_failure_renders_stream_not_parsed_body :
  res_json (@json_error_response unit) tt = (Resolved nope, tt) /\
  fst (getClient (always json_error_response) None "https://x/y" None tt)
    = Rejected (new_Error (failure_template "https://x/y" 500 "{}")) /\
  fst (getClient (always json_error_response) None "https://x/y" None tt)
    <> Rejected (new_Error (failure_template "https://x/y" 500 (JSON.stringify nope))) /\
  Str.includes (failure_template "https://x/y" 500 "{}") "nope" = false /\
  Str.includes (JSON.stringify nope) "nope" = true.
Proof.
  repeat split; try reflexivity.
  vm_compute. discriminate.
Qed.

(** On that path the message does not depend on the parsed value at all. *)
Lemma json_failure_ignores_parsed_body
    (World RequestInfo : Type) (fetch : Fetch World RequestInfo)
    (d i : option RequestInit) (input : RequestInfo) (w w1 w2 : World)
    (res : Response World) (parsed : JSValue) :
  fetch input (merge_init d i) w = (Resolved res, w1) ->
  isJson res = true ->
  res_json res w1 = (Resolved parsed, w2) ->
  res_ok res = false ->
  getClient fetch d input i w =
    (Rejected (new_Error (failure_template (res_url res) (res_status res)
                            (JSON.stringify (body_value (res_body res))))), w2).
Proof.
  intros Hfetch Hjson Hparsed Hok.
  rewrite getClient_steps, Hfetch, (read_body_json _ _ Hjson), Hparsed, Hok.
  unfold failure_message. now rewrite Hjson.
Qed.

(** ** Propagation of errors *)

(** C8. A rejection of the primitive, and an error raised while reading the
    body (as JSON or as text, whatever the [ok] flag), reject the client with
    that very error, and the world is left as the failing step left it:
    nothing is caught, replaced or tried again. *)
Theorem errors_propagate_unchanged
    (World RequestInfo : Type) (fetch : Fetch World RequestInfo)
    (d i : option RequestInit) (input : RequestInfo) (w : World) :
  (forall e w1,
      fetch input (merge_init d i) w = (Rejected e, w1) ->
      getClient fetch d input i w = (Rejected e, w1)) /\
  (forall res w1 e w2,
      fetch input (merge_init d i) w = (Resolved res, w1) ->
      isJson res = true ->
      res_json res w1 = (Rejected e, w2) ->
      getClient fetch d input i w = (Rejected e, w2)) /\
  (forall res w1 e w2,
      fetch input (merge_init d i) w = (Resolved res, w1) ->
      isJson res = false ->
      res_text res w1 = (Rejected e, w2) ->
      getClient fetch d input i w = (Rejected e, w2)).
Proof.
  split; [|split].
  - intros e w1 Hfetch. now rewrite getClient_steps, Hfetch.
  - intros res w1 e w2 Hfetch Hjson Hread.
    now rewrite getClient_steps, Hfetch, (read_body_json _ _ Hjson), Hread.
  - intros res w1 e w2 Hfetch Hjson Hread.
    now rewrite getClient_steps, Hfetch, (read_body_text _ _ Hjson), Hread.
Qed.

Lemma errors_propagate_unchanged_witness :
  getClient (unreachable network_down) None "https://x/y" None 7%nat
    = (Rejected network_down, 7%nat) /\
  getClient (counting broken_json_response) None "https://x/y" None 7%nat
    = (Rejected not_json, 8%nat) /\
  getClient (counting (response_double true 200 "https://x/y" None
                         (Resolved JNull) (Rejected network_down)))
            None "https://x/y" None 7%nat
    = (Rejected network_down, 8%nat).
Proof.
  split; [|split].
  - refine (proj1 (errors_propagate_unchanged nat string (unreachable network_down)
                     None None "https://x/y" 7%nat) network_down 7%nat _).
    reflexivity.
  - refine (proj1 (proj2 (errors_propagate_unchanged nat string
                     (counting broken_json_response) None None "https://x/y" 7%nat))
              broken_json_response 8%nat not_json 8%nat _ _ _); reflexivity.
  - refine (proj2 (proj2 (errors_propagate_unchanged nat string
                     (counting (response_double true 200 "https://x/y" None
                                  (Resolved JNull) (Rejected network_down)))
                     None None "https://x/y" 7%nat))
              _ 8%nat network_down 8%nat _ _ _); reflexivity.
Defined.

(** ** Repeated calls *)





(** * Further properties of the client *)

Lemma append_assoc (a b c : string) : (a +:+ b) +:+ c = a +:+ b +:+ c.
Proof.
  induction a as [|x a IH]; [reflexivity|].
  change (String x ((a +:+ b) +:+ c) = String x (a +:+ b +:+ c)). now f_equal.
Qed.

Lemma includes_middle (before p after : string) :
  Str.includes (before +:+ p +:+ after) p = true.
Proof. apply includes_spec. eauto. Qed.

(** X1. A resolved call always comes from a response with [ok = true]: the
    primitive resolved, the response's flag is set, and the value is the
    one the body-reading step resolved to. *)
Theorem resolved_only_from_ok_response
    (World RequestInfo : Type) (fetch : Fetch World RequestInfo)
    (d i : option RequestInit) (input : RequestInfo) (w w2 : World) (v : JSValue) :
  getClient fetch d input i w = (Resolved v, w2) ->
  exists res w1,
    fetch input (merge_init d i) w = (Resolved res, w1) /\
    res_ok res = true /\
    read_body res w1 = (Resolved v, w2).
Proof.
  rewrite getClient_steps.
  destruct (fetch input (merge_init d i) w) as [[res|e] w1]; [|discriminate].
  destruct (read_body res w1) as [[result|e] w2'] eqn:Hread; [|discriminate].
  destruct (res_ok res) eqn:Hok; [|discriminate].
  intros [= <- <-]. exists res, w1. auto.
Qed.

Lemma resolved_only_from_ok_response_witness :
  getClient (counting dogs_response) None "https://api.dogs.awesome" None 0%nat
    = (Resolved dogs, 1%nat) /\
  exists res w1,
    counting dogs_response "https://api.dogs.awesome" (merge_init None None) 0%nat
      = (Resolved res, w1) /\
    res_ok res = true /\
    read_body res w1 = (Resolved dogs, 1%nat).
Proof.
  split; [reflexivity|].
  exact (resolved_only_from_ok_response nat string (counting dogs_response) None None
           "https://api.dogs.awesome" 0%nat 1%nat dogs eq_refl).
Defined.

(** X2. A rejected call has one of three origins and no other: the
    primitive rejected with that error; or the body-reading step did; or
    the body was read, the response's [ok] flag is false, and the error is
    the plain [Error] built from the response. *)
Theorem rejection_origins
    (World RequestInfo : Type) (fetch : Fetch World RequestInfo)
    (d i : option RequestInit) (input : RequestInfo) (w w2 : World) (e : Exn) :
  getClient fetch d input i w = (Rejected e, w2) ->
  fetch input (merge_init d i) w = (Rejected e, w2) \/
  (exists res w1,
      fetch input (merge_init d i) w = (Resolved res, w1) /\
      read_body res w1 = (Rejected e, w2)) \/
  (exists res w1 result,
      fetch input (merge_init d i) w = (Resolved res, w1) /\
      read_body res w1 = (Resolved result, w2) /\
      res_ok res = false /\
      e = new_Error (failure_message res result)).
Proof.
  rewrite getClient_steps.
  destruct (fetch input (merge_init d i) w) as [[res|e0] w1].
  - destruct (read_body res w1) as [[result|e1] w2'] eqn:Hread.
    + destruct (res_ok res) eqn:Hok; [discriminate|].
      intros [= <- <-]. right. right. exists res, w1, result. auto.
    + intros [= <- <-]. right. left. exists res, w1. auto.
  - intros [= <- <-]. now left.
Qed.

Lemma rejection_origins_witness :
  getClient (counting teapot_response) None "https://x/brew" None 0%nat
    = (Rejected (new_Error (failure_template "https://x/brew" 418 "short and stout")),
       1%nat) /\
  (counting teapot_response "https://x/brew" (merge_init None None) 0%nat
     = (Rejected (new_Error (failure_template "https://x/brew" 418 "short and stout")),
        1%nat) \/
   (exists res w1,
       counting teapot_response "https://x/brew" (merge_init None None) 0%nat
         = (Resolved res, w1) /\
       read_body res w1
         = (Rejected (new_Error (failure_template "https://x/brew" 418 "short and stout")),
            1%nat)) \/
   (exists res w1 result,
       counting teapot_response "https://x/brew" (merge_init None None) 0%nat
         = (Resolved res, w1) /\
       read_body res w1 = (Resolved result, 1%nat) /\
       res_ok res = false /\
       new_Error (failure_template "https://x/brew" 418 "short and stout")
         = new_Error (failure_message res result))).
Proof.
  split; [reflexivity|].
  exact (rejection_origins nat string (counting teapot_response) None None
           "https://x/brew" 0%nat 1%nat _ eq_refl).
Defined.

(** X3. When a response with [ok = false] has its body read as text, the
    client rejects with a plain [Error] whose message begins with
    "Request to " and contains the response's URL, its status in decimal and
    the whole text of the body, whatever these are. *)
Theorem text_failure_message_contents
    (World RequestInfo : Type) (fetch : Fetch World RequestInfo)
    (d i : option RequestInit) (input : RequestInfo) (w w1 w2 : World)
    (res : Response World) (t : string) :
  fetch input (merge_init d i) w = (Resolved res, w1) ->
  res_ok res = false ->
  isJson res = false ->
  res_text res w1 = (Resolved t, w2) ->
  exists msg,
    getClient fetch d input i w = (Rejected (mkExn Error msg), w2) /\
    Str.startsWith msg "Request to " = true /\
    Str.includes msg (res_url res) = true /\
    Str.includes msg (Str.Number_toString (res_status res)) = true /\
    Str.includes msg t = true.
Proof.
  intros Hfetch Hok Hjson Htext.
  exists (failure_template (res_url res) (res_status res) t). split; [|split; [|split; [|split]]].
  - rewrite getClient_steps, Hfetch, (read_body_text _ _ Hjson), Htext, Hok.
    unfold failure_message. now rewrite Hjson.
  - apply startsWith_spec. unfold failure_template. eauto.
  - unfold failure_template. apply includes_middle.
  - unfold failure_template.
    rewrite <- (append_assoc (res_url res)), <- (append_assoc "Request to ").
    apply includes_middle.
  - apply includes_spec. unfold failure_template.
    exists ("Request to " +:+ res_url res +:+ " failed with status "
              +:+ Str.Number_toString (res_status res) +:+ " and response " +:+ Str.dquote).
    exists (Str.dquote +:+ "."). now rewrite !append_assoc.
Qed.

Lemma text_failure_message_contents_witness :
  res_ok (@teapot_response nat) = false /\
  isJson (@teapot_response nat) = false /\
  exists msg,
    getClient (counting teapot_response) None "https://x/brew" None 0%nat
      = (Rejected (mkExn Error msg), 1%nat) /\
    Str.startsWith msg "Request to " = true /\
    Str.includes msg "https://x/brew" = true /\
    Str.includes msg "418" = true /\
    Str.includes msg "short and stout" = true.
Proof.
  split; [reflexivity|]. split; [reflexivity|].
  exact (text_failure_message_contents nat string (counting teapot_response) None None
           "https://x/brew" 0%nat 1%nat 1%nat teapot_response "short and stout"
           eq_refl eq_refl eq_refl eq_refl).
Defined.

(** X4. When a response with [ok = false] has a JSON content type and its
    body parses, the message renders [res.body], not the parsed value: the
    rendering is an empty pair of braces when the response has a body stream
    and "null" when it has none, the same for every parsed value. *)
Theorem json_failure_message_rendering
    (World RequestInfo : Type) (fetch : Fetch World RequestInfo)
    (d i : option RequestInit) (input : RequestInfo) (w w1 w2 : World)
    (res : Response World) (parsed : JSValue) :
  fetch input (merge_init d i) w = (Resolved res, w1) ->
  res_ok res = false ->
  isJson res = true ->
  res_json res w1 = (Resolved parsed, w2) ->
  getClient fetch d input i w =
    (Rejected (new_Error (failure_template (res_url res) (res_status res)
                            (match res_body res with
                             | Some _ => "{}"
                             | None => "null"
                             end))), w2).
Proof.
  intros Hfetch Hok Hjson Hparsed.
  rewrite getClient_steps, Hfetch, (read_body_json _ _ Hjson), Hparsed, Hok.
  unfold failure_message. rewrite Hjson. now destruct (res_body res).
Qed.

Lemma json_failure_message_rendering_witness :
  getClient (always bodiless_json_response) None "https://x/y" None tt
    = (Rejected (new_Error (failure_template "https://x/y" 502 "null")), tt) /\
  getClient (always json_error_response) None "https://x/y" None tt
    = (Rejected (new_Error (failure_template "https://x/y" 500 "{}")), tt).
Proof.
  split.
  - exact (json_failure_message_rendering unit string (always bodiless_json_response)
             None None "https://x/y" tt tt tt bodiless_json_response nope
             eq_refl eq_refl eq_refl eq_refl).
  - exact (json_failure_message_rendering unit string (always json_error_response)
             None None "https://x/y" tt tt tt json_error_response nope
             eq_refl eq_refl eq_refl eq_refl).
Defined.

(** X5. One call of the client reads the body of the response exactly
    once, by [json()] for a JSON content type and by [text()] otherwise,
    whether [ok] is set or not and whether the reading succeeds or not; when
    the primitive rejects no body is read. *)
Theorem body_read_exactly_once
    (World RequestInfo : Type) (fetch : Fetch World RequestInfo)
    (d i : option RequestInit) (input : RequestInfo) (w : World) :
  body_reads fetch d input i w =
    match fst (fetch input (merge_init d i) w) with
    | Resolved res => [if isJson res then ReadJson else ReadText]
    | Rejected _ => []
    end.
Proof.
  unfold body_reads. rewrite getClient_steps. unfold watch. cbn [fst snd].
  destruct (fetch input (merge_init d i) w) as [[res|e] w1]; [|reflexivity].
  cbn [fst]. unfold read_body, await, resolve.
  change (isJson (watch_response res)) with (isJson res).
  destruct (isJson res); cbn [watch_response res_json res_text res_ok];
    unfold note_read; cbn [fst snd].
  - destruct (res_json res w1) as [[v|e] w2]; [|reflexivity].
    destruct (res_ok res); reflexivity.
  - destruct (res_text res w1) as [[t|e] w2]; [|reflexivity].
    destruct (res_ok res); reflexivity.
Qed.

(** X6. The client takes a response for JSON exactly when its content-type
    header is present and its value holds the code units of
    "application/json" somewhere: parameters after the media type are
    accepted, while another spelling or a [+json] suffix type is not. *)
Theorem isJson_exactly_substring
    (World : Type) (res : Response World) :
  (isJson res = true <->
   exists v before after,
     res_headers_get res "content-type" = Some v /\
     v = before +:+ "application/json" +:+ after) /\
  (forall v, res_headers_get res "content-type" = Some v ->
     isJson res = true ->
     forall pre post,
       isJson (mkResponse (res_ok res) (res_status res) (res_url res)
                 (content_type_only (Some (pre +:+ v +:+ post)))
                 (res_body res) (res_json res) (res_text res)) = true) /\
  isJson (@response_double World true 200 EmptyString
            (Some "application/vnd.api+json") (Resolved JNull) (Resolved EmptyString)) = false.
Proof.
  split; [|split].
  - rewrite isJson_true_iff. split.
    + intros (v & Hv & Hinc). apply includes_spec in Hinc as (before & after & ->). eauto.
    + intros (v & before & after & Hv & ->). exists (before +:+ "application/json" +:+ after).
      split; [exact Hv | apply includes_middle].
  - intros v Hv Hjson pre post.
    apply isJson_true_iff in Hjson as (v' & Hv' & Hinc).
    rewrite Hv in Hv'. injection Hv' as <-.
    apply includes_spec in Hinc as (before & after & ->).
    apply isJson_true_iff. eexists. split; [reflexivity|].
    apply includes_spec. exists (pre +:+ before), (after +:+ post).
    now rewrite !append_assoc.
  - reflexivity.
Qed.

Lemma isJson_exactly_substring_witness :
  res_headers_get (@json_error_response unit) "content-type"
    = Some "application/json; charset=utf-8" /\
  isJson (@json_error_response unit) = true /\
  isJson (@response_double unit false 500 "https://x/y"
            (Some ("multipart/mixed; part=" +:+ "application/json; charset=utf-8" +:+ "; q=1"))
            (Resolved nope) (Resolved (JSON.stringify nope))) = true.
Proof.
  assert (Hjson : isJson (@json_error_response unit) = true).
  { apply (proj1 (isJson_exactly_substring unit json_error_response)).
    exists "application/json; charset=utf-8", EmptyString, "; charset=utf-8".
    split; reflexivity. }
  split; [reflexivity|]. split; [exact Hjson|].
  exact (proj1 (proj2 (isJson_exactly_substring unit json_error_response))
           "application/json; charset=utf-8" eq_refl Hjson
           "multipart/mixed; part=" "; q=1").
Defined.

(** ** Further properties of the merged options *)

(** X7. With both defaults and per-call options given, the keys of the
    options the primitive receives are those of either object; and when the
    per-call options hold every key of the defaults (so always when the
    defaults are the empty object) the primitive receives the per-call
    options alone. *)
Theorem merged_options_keys
    (World RequestInfo : Type) (fetch : Fetch World RequestInfo)
    (input : RequestInfo) (w : World) (log : list Call) (D I : RequestInit) :
  exists M : RequestInit,
    received fetch (Some D) input (Some I) w log = (log ++ [(input, Some M)])%list /\
    dom M = dom I ∪ dom D /\
    (dom D ⊆ dom I -> M = I) /\
    (D = ∅ -> M = I).
Proof.
  assert (Hsub : dom D ⊆ dom I -> I ∪ D = I).
  { intros Hdom. apply map_eq. intros k. rewrite lookup_union.
    destruct (I !! k) as [v|] eqn:HI; [now destruct (D !! k)|].
    destruct (D !! k) as [v|] eqn:HD; [|reflexivity].
    exfalso. apply (not_elem_of_dom I k); [exact HI|].
    apply Hdom. apply elem_of_dom. eauto. }
  exists (I ∪ D). rewrite spy_records, merge_init_both.
  split; [reflexivity|]. split; [apply dom_union_L|]. split; [exact Hsub|].
  intros ->. apply Hsub. rewrite dom_empty_L. apply empty_subseteq.
Qed.

Lemma merged_options_keys_witness :
  exists M : RequestInit,
    received (always (@pong_response unit)) (Some {[ "method" := JString "GET" ]})
             "https://x/ping"
             (Some {[ "method" := JString "POST" ]}) tt []
      = [("https://x/ping", Some M)] /\
    M = {[ "method" := JString "POST" ]}.
Proof.
  destruct (merged_options_keys unit string (always pong_response) "https://x/ping" tt []
              {[ "method" := JString "GET" ]} {[ "method" := JString "POST" ]})
    as (M & Hrec & _ & Hsub & _).
  exists M. split; [exact Hrec|].
  apply Hsub. rewrite !dom_singleton_L. reflexivity.
Defined.

(** X8. A client bound to defaults behaves, call by call, as the client
    without defaults called with the merged options, in outcome and in what
    it does to the world; and passing options that are already merged with
    the defaults changes nothing. *)
Theorem defaults_amount_to_merged_call
    (World RequestInfo : Type) (fetch : Fetch World RequestInfo)
    (D : RequestInit) (i : option RequestInit) (input : RequestInfo) (w : World) :
  getClient fetch (Some D) input i w
    = getClient fetch None input (Some (default ∅ i ∪ D)) w /\
  getClient fetch (Some D) input (Some (default ∅ i ∪ D)) w
    = getClient fetch (Some D) input i w.
Proof.
  assert (Hmerge : merge_init (Some D) i = Some (default ∅ i ∪ D)).
  { destruct i as [I|]; cbn [default from_option id].
    - apply merge_init_both.
    - rewrite merge_init_default_only. now rewrite (left_id_L ∅ (∪) D). }
  assert (Hagain : merge_init (Some D) (Some (default ∅ i ∪ D)) = Some (default ∅ i ∪ D)).
  { rewrite merge_init_both. f_equal.
    rewrite <- (assoc_L (∪)). now rewrite (idemp_L (∪) D). }
  split.
  - rewrite !getClient_steps. now rewrite Hmerge.
  - rewrite !getClient_steps. now rewrite Hagain, Hmerge.
Qed.
